(** * MillicastPublish: the publish side of the Millicast SDK

    A shallow embedding of [packages/millicast-sdk-js/src/MillicastPublish.js].
    The class sequences calls into two collaborators whose code lives in
    other modules ([MillicastWebRTC], [MillicastSignaling]) plus the logger
    and the [re-emitter] helper.  The collaborators are kept abstract (class
    [Collaborators]); every interaction with them is recorded, in program
    order, in a trace, so that the statements below can speak about which
    calls were made, in which order and with which arguments. *)

From Stdlib Require Import List String Ascii Bool Arith Lia Floats.
Import ListNotations.
Local Open Scope string_scope.
Local Open Scope list_scope.

(** ** The fragment of JavaScript the publisher relies on *)

Module JS.

(** Values that can reach the publisher as arguments.  Objects are plain
    data objects (own data properties, first binding of a name wins),
    arrays are dense, host objects such as a [MediaStream] are opaque
    handles.  Symbols, BigInts, accessors and proxies are outside the
    model, and so are objects that carry a toString, valueOf or
    Symbol.toPrimitive of their own: every object converts the way
    Object.prototype and Array.prototype make it.  Numbers are IEEE 754
    binary64, as in the language. *)
#[warnings="-register-all"]
Inductive value : Type :=
| VUndefined
| VNull
| VBool (b : bool)
| VNumber (n : float)
| VString (s : string)
| VArray (elems : list value)
| VObject (props : list (string * value))
| VHost (cls : string) (id : nat).

(** What a throw statement (or a rejected promise) carries. *)
Inductive exception : Type :=
| Error (message : string)     (* new Error(message) *)
| TypeError                    (* raised by the runtime itself *)
| Foreign (payload : value).   (* anything a collaborator throws *)

(** Completion of an evaluation: a value, or an abrupt completion. *)
Inductive Completion (A : Type) : Type :=
| Normal (a : A)
| Throw (e : exception).
Arguments Normal {A} a.
Arguments Throw {A} e.

(** [!!v] *)
Definition ToBoolean (v : value) : bool :=
  match v with
  | VUndefined | VNull => false
  | VBool b => b
  | VNumber n => negb (PrimFloat.eqb n 0%float || negb (PrimFloat.eqb n n))
  | VString s => negb (String.eqb s "")
  | VArray _ | VObject _ | VHost _ _ => true
  end.

Fixpoint lookup (key : string) (props : list (string * value)) : value :=
  match props with
  | [] => VUndefined
  | (k, v) :: rest => if String.eqb k key then v else lookup key rest
  end.

(** [v.key], for a [key] that no built-in prototype defines (all the
    names the publisher reads are such). *)
Definition Get (v : value) (key : string) : Completion value :=
  match v with
  | VUndefined | VNull => Throw TypeError
  | VObject props => Normal (lookup key props)
  | VBool _ | VNumber _ | VString _ | VArray _ | VHost _ _ => Normal VUndefined
  end.

(** [v[0]] *)
Definition GetFirst (v : value) : Completion value :=
  match v with
  | VUndefined | VNull => Throw TypeError
  | VArray elems => Normal (nth 0 elems VUndefined)
  | VString s =>
      Normal match s with
             | EmptyString => VUndefined
             | String c _ => VString (String c EmptyString)
             end
  | VObject props => Normal (lookup "0" props)
  | VBool _ | VNumber _ | VHost _ _ => Normal VUndefined
  end.

(** [v === s] for a string literal [s]. *)
Definition StrictEqualsString (v : value) (s : string) : bool :=
  match v with
  | VString t => String.eqb t s
  | _ => false
  end.

(** [a || b] *)
Definition LogicalOr (a b : value) : value :=
  if ToBoolean a then a else b.

Section Conversions.
(** The two conversions between numbers and text are the runtime's. *)
Variable NumberToString : float -> string.
Variable StringToNumber : string -> float.

(** [`${v}`]; an array prints as [join(',')], where undefined and
    null elements print as nothing. *)
Fixpoint ToString (v : value) : string :=
  match v with
  | VUndefined => "undefined"
  | VNull => "null"
  | VBool true => "true"
  | VBool false => "false"
  | VNumber n => NumberToString n
  | VString s => s
  | VArray elems =>
      let fix join (l : list value) : string :=
        match l with
        | [] => ""
        | x :: rest =>
            let s := match x with
                     | VUndefined | VNull => ""
                     | _ => ToString x
                     end in
            match rest with
            | [] => s
            | _ :: _ => (s ++ "," ++ join rest)%string
            end
        end in
      join elems
  | VObject _ => "[object Object]"
  | VHost cls _ => ("[object " ++ cls ++ "]")%string
  end.

(** Numeric coercion; objects go through their string form. *)
Definition ToNumber (v : value) : float :=
  match v with
  | VUndefined => nan
  | VNull => 0%float
  | VBool true => 1%float
  | VBool false => 0%float
  | VNumber n => n
  | VString s => StringToNumber s
  | VArray _ | VObject _ | VHost _ _ => StringToNumber (ToString v)
  end.

(** [v > n] for a number [n]: always the numeric comparison. *)
Definition GreaterThan (v : value) (n : float) : bool :=
  PrimFloat.ltb n (ToNumber v).
End Conversions.

End JS.
Import JS.

(** ** Collaborators *)

(** Collaborator objects live outside the publisher and are referred to by
    reference. *)
Definition ref := nat.

Inductive LogLevel : Type := debug | info | warn | error.

(** One interaction with the outside, as the publisher performs it. *)
Inductive Event : Type :=
| ELog (level : LogLevel) (args : list value)
| ENew (cls : string) (r : ref) (args : list value)
| ECall (target : ref) (method : string) (args : list value)
        (result : Completion value)
| EAssign (target : ref) (field : string) (v : value)
| EReemit (source : ref) (events : list value) (result : Completion unit).

(** Everything [MillicastPublish.js] imports and does not define.  [Host]
    is the state of the world outside the publisher: the internals of every
    collaborator object, the browser, the network.  A method call on a
    collaborator may return or throw and may change that state in any way;
    for a call that the source awaits, the completion is the settled
    outcome of the promise.  Constructors of the collaborator classes and
    plain field writes complete normally. *)
Class Collaborators : Type := {
  Host : Type;
  NumberToString : float -> string;
  StringToNumber : string -> float;
  (* MillicastVideoCodec.H264 *)
  MillicastVideoCodec_H264 : value;
  (* webRTCEvents.connectionStateChange *)
  webRTCEvents_connectionStateChange : value;
  (* new cls(...args), the instance being stored at r *)
  construct : string -> ref -> list value -> Host -> Host;
  (* r.method(...args) *)
  invoke : ref -> string -> list value -> Host -> Completion value * Host;
  (* r.field = v *)
  assign : ref -> string -> value -> Host -> Host;
  (* reemit(r, this, events) *)
  reemit_into : ref -> list value -> Host -> Completion unit * Host
}.

(** ** State and effects *)

Section Effects.
Context {C : Collaborators}.

Record World : Type := mkWorld {
  host : Host;
  next_ref : ref;            (* references below it are allocated *)
  trace : list Event         (* oldest first *)
}.

(** The fields of a publisher instance; [None] is [null]. *)
Record MillicastPublish : Type := mkPublisher {
  webRTCPeer : ref;
  millicastSignaling : option ref;
  streamName : value
}.

Record Config : Type := mkConfig {
  this : MillicastPublish;
  world : World
}.

(** Computations over a state [S] that may throw; the state reached at
    the throw is kept. *)
Definition Eff (S A : Type) : Type := S -> Completion A * S.

Definition ret {S A} (a : A) : Eff S A := fun s => (Normal a, s).

Definition throw {S A} (e : exception) : Eff S A := fun s => (Throw e, s).

Definition bind {S A B} (m : Eff S A) (k : A -> Eff S B) : Eff S B :=
  fun s =>
    match m s with
    | (Normal a, s') => k a s'
    | (Throw e, s') => (Throw e, s')
    end.

(** [if (c) { body }] *)
Definition when {S} (c : bool) (body : Eff S unit) : Eff S unit :=
  if c then body else ret tt.

(** Evaluation of a pure expression that may throw. *)
Definition eval {S A} (c : Completion A) : Eff S A := fun s => (c, s).

Definition record (e : Event) (w : World) : World :=
  mkWorld (host w) (next_ref w) (trace w ++ [e]).

Definition log (level : LogLevel) (args : list value) : Eff World unit :=
  fun w => (Normal tt, record (ELog level args) w).

Definition new (cls : string) (args : list value) : Eff World ref :=
  fun w =>
    let r := next_ref w in
    (Normal r,
     mkWorld (construct cls r args (host w)) (S r)
             (trace w ++ [ENew cls r args])).

Definition call (target : ref) (method : string) (args : list value)
  : Eff World value :=
  fun w =>
    let (res, h) := invoke target method args (host w) in
    (res, mkWorld h (next_ref w) (trace w ++ [ECall target method args res])).

Definition set_field (target : ref) (field : string) (v : value)
  : Eff World unit :=
  fun w =>
    (Normal tt,
     mkWorld (assign target field v (host w)) (next_ref w)
             (trace w ++ [EAssign target field v])).

Definition reemit (source : ref) (events : list value) : Eff World unit :=
  fun w =>
    let (res, h) := reemit_into source events (host w) in
    (res, mkWorld h (next_ref w) (trace w ++ [EReemit source events res])).

(** An effect on the world, run from inside a method. *)
Definition outside {A} (m : Eff World A) : Eff Config A :=
  fun c => let (res, w) := m (world c) in (res, mkConfig (this c) w).

(** [this.field] *)
Definition read {A} (field : MillicastPublish -> A) : Eff Config A :=
  fun c => (Normal (field (this c)), c).

(** [this.millicastSignaling = s] *)
Definition set_millicastSignaling (s : option ref) : Eff Config unit :=
  fun c =>
    (Normal tt,
     mkConfig (mkPublisher (webRTCPeer (this c)) s (streamName (this c)))
              (world c)).

(** A method call on a field that may hold null. *)
Definition deref {S} (o : option ref) : Eff S ref :=
  match o with
  | Some r => ret r
  | None => throw TypeError
  end.
End Effects.

Declare Scope eff_scope.
Delimit Scope eff_scope with eff.
Notation "x <- m ;; k" := (bind m (fun x => k))
  (at level 61, m at next level, right associativity) : eff_scope.
Notation "m ;; k" := (bind m (fun _ => k))
  (at level 61, right associativity) : eff_scope.
Local Open Scope eff_scope.

(** ** The class *)

Section Publisher.
Context {C : Collaborators}.

Let ToString := JS.ToString NumberToString.
Let GreaterThan := JS.GreaterThan NumberToString StringToNumber.

(** [constructor (streamName)] *)
Definition constructor (streamName : value) : Eff World MillicastPublish :=
  when (negb (ToBoolean streamName))
    (log error [VString "Stream Name is required to construct a publisher."] ;;
     throw (Error "Stream Name is required to construct a publisher.")) ;;
  peer <- new "MillicastWebRTC" [] ;;
  ret (mkPublisher peer None streamName).

(** [isActive ()] *)
Definition isActive : Eff Config bool :=
  peer <- read webRTCPeer ;;
  rtcPeerState <- outside (call peer "getRTCPeerStatus" []) ;;
  outside (log info [VString "Broadcast status: ";
                     LogicalOr rtcPeerState (VString "not_established")]) ;;
  ret (StrictEqualsString rtcPeerState "connected").

(** The default value of the parameter of [broadcast]. *)
Definition default_options : value :=
  VObject [("publisherData", VNull);
           ("mediaStream", VNull);
           ("bandwidth", VNumber 0);
           ("disableVideo", VBool false);
           ("disableAudio", VBool false);
           ("codec", MillicastVideoCodec_H264);
           ("simulcast", VBool false);
           ("scalabilityMode", VNull)].

(** Binding of a parameter that has a default value. *)
Definition parameter (arg : value) : value :=
  match arg with
  | VUndefined => default_options
  | _ => arg
  end.

(** [async broadcast (options = {...})]; an await is run to the settled
    outcome of what it awaits, and a throw is the rejection of the
    returned promise.  This is one call on its own: no other method of
    the publisher runs while it waits, so that the fields of the
    publisher change only where the call itself writes them. *)
Definition broadcast (arg : value) : Eff Config unit :=
  let options := parameter arg in
  outside (log debug [VString "Broadcast option values: "; options]) ;;
  publisherData <- eval (Get options "publisherData") ;;
  when (negb (ToBoolean publisherData))
    (outside (log error [VString "Error while broadcasting. Publisher data required"]) ;;
     throw (Error "Publisher data required")) ;;
  mediaStream <- eval (Get options "mediaStream") ;;
  when (negb (ToBoolean mediaStream))
    (outside (log error [VString "Error while broadcasting. MediaStream required"]) ;;
     throw (Error "MediaStream required")) ;;
  active <- isActive ;;
  when active
    (outside (log warn [VString "Broadcast currently working"]) ;;
     throw (Error "Broadcast currently working")) ;;

  name <- read streamName ;;
  publisherData <- eval (Get options "publisherData") ;;
  urls <- eval (Get publisherData "urls") ;;
  first <- eval (GetFirst urls) ;;
  publisherData <- eval (Get options "publisherData") ;;
  jwt <- eval (Get publisherData "jwt") ;;
  signaling <- outside (new "MillicastSignaling"
                 [VObject [("streamName", name);
                           ("url", VString (ToString first ++ "?token=" ++ ToString jwt)%string)]]) ;;
  set_millicastSignaling (Some signaling) ;;

  peer <- read webRTCPeer ;;
  outside (call peer "getRTCPeer" []) ;;
  peer <- read webRTCPeer ;;
  outside (reemit peer [webRTCEvents_connectionStateChange]) ;;

  peer <- read webRTCPeer ;;
  disableVideo <- eval (Get options "disableVideo") ;;
  disableAudio <- eval (Get options "disableAudio") ;;
  outside (set_field peer "RTCOfferOptions"
             (VObject [("offerToReceiveVideo", VBool (negb (ToBoolean disableVideo)));
                       ("offerToReceiveAudio", VBool (negb (ToBoolean disableAudio)))])) ;;
  peer <- read webRTCPeer ;;
  mediaStream <- eval (Get options "mediaStream") ;;
  simulcast <- eval (Get options "simulcast") ;;
  codec <- eval (Get options "codec") ;;
  scalabilityMode <- eval (Get options "scalabilityMode") ;;
  localSdp <- outside (call peer "getRTCLocalSDP"
                [VObject [("mediaStream", mediaStream);
                          ("simulcast", simulcast);
                          ("codec", codec);
                          ("scalabilityMode", scalabilityMode)]]) ;;
  signaling <- read millicastSignaling ;;
  signaling <- deref signaling ;;
  codec <- eval (Get options "codec") ;;
  remoteSdp <- outside (call signaling "publish" [localSdp; codec]) ;;

  disableVideo <- eval (Get options "disableVideo") ;;
  restrict <- (if negb (ToBoolean disableVideo)
               then
                 bandwidth <- eval (Get options "bandwidth") ;;
                 ret (GreaterThan bandwidth 0)
               else ret false) ;;
  remoteSdp <- (if restrict
                then
                  peer <- read webRTCPeer ;;
                  bandwidth <- eval (Get options "bandwidth") ;;
                  outside (call peer "updateBandwidthRestriction"
                             [remoteSdp; bandwidth])
                else ret remoteSdp) ;;

  peer <- read webRTCPeer ;;
  outside (call peer "setRTCRemoteSDP" [remoteSdp]) ;;
  name <- read streamName ;;
  outside (log info [VString "Broadcasting to streamName: "; name]).

(** [stop ()] *)
Definition stop : Eff Config unit :=
  outside (log info [VString "Stopping broadcast"]) ;;
  peer <- read webRTCPeer ;;
  outside (call peer "closeRTCPeer" []) ;;
  signaling <- read millicastSignaling ;;
  match signaling with
  | Some s => outside (call s "close" []) ;; ret tt
  | None => ret tt
  end ;;
  set_millicastSignaling None.
End Publisher.

(** ** A test double for the collaborators

    One peer connection whose status is the whole outside state: it is
    ["new"] once the peer exists, ["connected"] once a remote description
    is set, and undefined again after it is closed. *)

Module Mock.
Definition respond (r : ref) (method : string) (args : list value)
           (status : value) : Completion value * value :=
  if String.eqb method "getRTCPeerStatus" then (Normal status, status)
  else if String.eqb method "getRTCPeer" then (Normal VUndefined, VString "new")
  else if String.eqb method "getRTCLocalSDP" then (Normal (VString "offer"), status)
  else if String.eqb method "publish" then (Normal (VString "answer"), status)
  else if String.eqb method "updateBandwidthRestriction" then
    (Normal match args with
            | VString sdp :: _ => VString (sdp ++ " b=AS")%string
            | _ => VUndefined
            end, status)
  else if String.eqb method "setRTCRemoteSDP" then
    (Normal VUndefined, VString "connected")
  else if String.eqb method "closeRTCPeer" then (Normal VUndefined, VUndefined)
  else (Normal VUndefined, status).

Definition collaborators : Collaborators := {|
  Host := value;
  NumberToString := fun _ => "0";
  StringToNumber := fun _ => nan;
  MillicastVideoCodec_H264 := VString "h264";
  webRTCEvents_connectionStateChange := VString "connectionStateChange";
  construct := fun _ _ _ status => status;
  invoke := respond;
  assign := fun _ _ _ status => status;
  reemit_into := fun _ _ status => (Normal tt, status)
|}.

Definition start : @World collaborators := mkWorld (VUndefined : @Host collaborators) 0 [].

Definition publisherData : value :=
  VObject [("urls", VArray [VString "wss://live.example/ws"; VString "wss://backup.example/ws"]);
           ("jwt", VString "t0k3n")].

Definition options : value :=
  VObject [("publisherData", publisherData);
           ("mediaStream", VHost "MediaStream" 1);
           ("bandwidth", VNumber 1000);
           ("disableVideo", VBool false)].

(** The publisher [new MillicastPublish('demo')]. *)
Definition idle : @Config collaborators :=
  match @constructor collaborators (VString "demo") start with
  | (Normal p, w) => mkConfig p w
  | (Throw _, w) => mkConfig (mkPublisher 0 None VUndefined) w
  end.

(** The same publisher after [broadcast(options)]. *)
Definition live : @Config collaborators :=
  snd (@broadcast collaborators options idle).
End Mock.

(** A second test double, whose peer connection fails on every call. *)

Module Faulty.
Definition collaborators : Collaborators := {|
  Host := unit;
  NumberToString := fun _ => "0";
  StringToNumber := fun _ => nan;
  MillicastVideoCodec_H264 := VString "h264";
  webRTCEvents_connectionStateChange := VString "connectionStateChange";
  construct := fun _ _ _ h => h;
  invoke := fun _ _ _ h => (Throw (Foreign (VString "InvalidStateError")), h);
  assign := fun _ _ _ h => h;
  reemit_into := fun _ _ h => (Normal tt, h)
|}.

Definition idle : @Config collaborators :=
  mkConfig (mkPublisher 0 None (VString "demo"))
           (mkWorld (tt : @Host collaborators) 1 []).
End Faulty.

(** ** Vocabulary of the statements *)

Section Vocabulary.
Context {C : Collaborators}.

(** References handed out so far. *)
Definition allocated (w : World) (r : ref) : Prop := r < next_ref w.

(** [v.key] where the read does not throw, undefined where it does. *)
Definition prop (v : value) (key : string) : value :=
  match Get v key with
  | Normal x => x
  | Throw _ => VUndefined
  end.

(** The events that running [m] from [c] adds to the trace. *)
Definition events {A} (m : Eff Config A) (c : Config) : list Event :=
  skipn (List.length (trace (world c))) (trace (world (snd (m c)))).


(** [!options.key] *)
Definition missing (options : value) (key : string) : bool :=
  negb (ToBoolean (prop options key)).

(** The test [!options.disableVideo && options.bandwidth > 0]. *)
Definition restricts (options : value) : bool :=
  negb (ToBoolean (prop options "disableVideo"))
  && JS.GreaterThan NumberToString StringToNumber (prop options "bandwidth") 0.

(** The calls of one method among some events: receiver, arguments and
    completion of each, oldest first. *)
Definition calls (method : string) (l : list Event)
  : list (ref * list value * Completion value) :=
  flat_map (fun e =>
              match e with
              | ECall r m args res =>
                  if String.eqb m method then [(r, args, res)] else []
              | _ => []
              end) l.

(** The fields written among some events: object, field and value of
    each, oldest first. *)
Definition written (l : list Event) : list (ref * string * value) :=
  flat_map (fun e =>
              match e with
              | EAssign r field v => [(r, field, v)]
              | _ => []
              end) l.

(** The objects constructed among some events. *)
Definition constructed (l : list Event) : list Event :=
  filter (fun e => match e with ENew _ _ _ => true | _ => false end) l.

(** The events of one call of [stop] that returned. *)
Definition stop_events (p : MillicastPublish) (closed : list Event) : Prop :=
  exists v,
    match millicastSignaling p with
    | Some s =>
        exists v',
          closed = [ELog info [VString "Stopping broadcast"];
                    ECall (webRTCPeer p) "closeRTCPeer" [] (Normal v);
                    ECall s "close" [] (Normal v')]
    | None =>
        closed = [ELog info [VString "Stopping broadcast"];
                  ECall (webRTCPeer p) "closeRTCPeer" [] (Normal v)]
    end.
(** The events [l] are what happened: done one after the other on the
    collaborators in the state [h], every call completes as recorded,
    and the collaborators are then in the state [h']. *)
Fixpoint performed (h : Host) (l : list Event) (h' : Host) : Prop :=
  match l with
  | [] => h' = h
  | ELog _ _ :: l => performed h l h'
  | ENew cls r args :: l => performed (construct cls r args h) l h'
  | ECall r method args res :: l =>
      exists h1, invoke r method args h = (res, h1) /\ performed h1 l h'
  | EAssign r field v :: l => performed (assign r field v h) l h'
  | EReemit r evs res :: l =>
      exists h1, reemit_into r evs h = (res, h1) /\ performed h1 l h'
  end.

(** The publisher refers to objects that exist, and its signaling object
    is not its peer. *)
Definition well_formed (c : Config) : Prop :=
  allocated (world c) (webRTCPeer (this c))
  /\ forall s, millicastSignaling (this c) = Some s ->
               allocated (world c) s /\ s <> webRTCPeer (this c).

(** The options [broadcast] hands on as they are. *)
Definition passed_on : list string :=
  ["mediaStream"; "disableVideo"; "disableAudio"; "simulcast"; "codec";
   "scalabilityMode"; "bandwidth"].

(** Two option objects that agree on everything [broadcast] looks at
    after the debug line: the options it hands on, whether there is a
    publisherData, its first url and its jwt. *)
Definition same_session (o o' : value) : Prop :=
  (forall key, In key passed_on -> prop o key = prop o' key)
  /\ ToBoolean (prop o "publisherData") = ToBoolean (prop o' "publisherData")
  /\ GetFirst (prop (prop o "publisherData") "urls")
     = GetFirst (prop (prop o' "publisherData") "urls")
  /\ prop (prop o "publisherData") "jwt" = prop (prop o' "publisherData") "jwt".
End Vocabulary.

(** ** Sample calls on the first test double *)

Module Scenario.
Import Mock.

(** The same options with video disabled. *)
Definition audio_only : value :=
  VObject [("publisherData", publisherData);
           ("mediaStream", VHost "MediaStream" 1);
           ("bandwidth", VNumber 1000);
           ("disableVideo", VBool true)].

(** No bandwidth limit, said with 0 and said by leaving bandwidth out. *)
Definition unlimited : value :=
  VObject [("publisherData", publisherData);
           ("mediaStream", VHost "MediaStream" 1);
           ("bandwidth", VNumber 0)].

Definition unset : value :=
  VObject [("publisherData", publisherData);
           ("mediaStream", VHost "MediaStream" 1)].

(** The publisher after [broadcast(options)] and [stop()]. *)
Definition stopped : @Config collaborators :=
  snd (@stop collaborators live).

(** What [broadcast(arg)] does on the fresh publisher. *)
Definition happened (arg : value) : list Event :=
  @events collaborators unit (broadcast arg) idle.

(** The call of publish in these runs. *)
Definition published : ref * list value * Completion value :=
  (1, [VString "offer"; VUndefined], Normal (VString "answer")).
(** Options without a mediaStream. *)
Definition no_stream : value :=
  VObject [("publisherData", publisherData)].

(** The options of the first test double again, with another second url
    and a field that broadcast does not know. *)
Definition verbose : value :=
  VObject [("note", VString "evening show");
           ("publisherData",
             VObject [("jwt", VString "t0k3n");
                      ("urls", VArray [VString "wss://live.example/ws";
                                       VString "wss://other.example/ws";
                                       VString "wss://third.example/ws"])]);
           ("mediaStream", VHost "MediaStream" 1);
           ("bandwidth", VNumber 1000);
           ("disableVideo", VBool false)].

(** The publisher after [broadcast(options)], once the connection has
    dropped: it still holds its signaling object. *)
Definition dropped : @Config collaborators :=
  mkConfig (this live)
           (mkWorld (VString "disconnected" : @Host collaborators)
                    (next_ref (world live)) (trace (world live))).
End Scenario.

(** * Properties *)

(** ** The coercions on a few values *)

Example ToBoolean_falsy :
  map ToBoolean [VUndefined; VNull; VBool false; VNumber 0; VNumber (-0);
                 VNumber nan; VString ""]
  = [false; false; false; false; false; false; false].
Proof. reflexivity. Qed.

Example ToBoolean_truthy :
  map ToBoolean [VBool true; VNumber 1; VNumber (-1); VNumber infinity;
                 VString "0"; VString "false"; VArray []; VObject [];
                 VHost "MediaStream" 0]
  = [true; true; true; true; true; true; true; true; true].
Proof. reflexivity. Qed.

Example Get_examples :
  Get (VObject [("jwt", VString "a"); ("jwt", VString "b")]) "jwt" = Normal (VString "a")
  /\ Get (VObject []) "jwt" = Normal VUndefined
  /\ Get (VString "text") "jwt" = Normal VUndefined
  /\ Get VNull "jwt" = Throw TypeError
  /\ Get VUndefined "jwt" = Throw TypeError.
Proof. repeat split. Qed.

Example GetFirst_examples :
  GetFirst (VArray [VString "u0"; VString "u1"]) = Normal (VString "u0")
  /\ GetFirst (VArray []) = Normal VUndefined
  /\ GetFirst (VString "wss://x") = Normal (VString "w")
  /\ GetFirst (VObject [("0", VBool true)]) = Normal (VBool true)
  /\ GetFirst VUndefined = Throw TypeError.
Proof. repeat split. Qed.

Example ToString_examples (f : float -> string) :
  ToString f (VArray [VString "a"; VNull; VArray [VString "b"; VUndefined; VString "c"];
                      VBool true; VObject []])
  = "a,,b,,c,true,[object Object]"
  /\ ToString f (VArray []) = ""
  /\ ToString f VUndefined = "undefined"
  /\ ToString f (VHost "MediaStream" 3) = "[object MediaStream]".
Proof. repeat split. Qed.

Example GreaterThan_examples (f : float -> string) (g : string -> float) :
  map (fun v => GreaterThan f g v 0)
      [VNumber 1000; VNumber 0.5; VNumber 0; VNumber (-1); VNumber nan;
       VUndefined; VNull; VBool true; VBool false]
  = [true; true; false; false; false; false; false; true; false].
Proof. reflexivity. Qed.

(** ** The methods, for all collaborators *)

Section Verification.
Context {C : Collaborators}.

(** Unfolding of the effects, down to the calls of the collaborators. *)
Ltac exec :=
  cbv [events broadcast constructor isActive stop bind ret throw when eval
       outside read set_millicastSignaling deref log new call set_field
       reemit record this world host next_ref trace
       webRTCPeer millicastSignaling streamName fst snd missing].

Lemma skipn_length_app {A} (l k : list A) : skipn (List.length l) (l ++ k) = k.
Proof. induction l; simpl; auto. Qed.

Lemma StrictEqualsString_spec (v : value) (s : string) :
  StrictEqualsString v s = true <-> v = VString s.
Proof.
  destruct v; simpl; try (split; [discriminate | intros E; inversion E]).
  rewrite String.eqb_eq. split; [intros ->; reflexivity | congruence].
Qed.

(** *** The constructor *)

(** C8: the constructor throws 'Stream Name is required to construct a
    publisher.' for every falsy stream name (undefined, null and the
    empty string among them) and constructs nothing then; for every
    truthy stream name it returns a publisher that stores the name, has
    no signaling yet and owns a MillicastWebRTC instance that did not
    exist before the call. *)
Theorem constructor_requires_stream_name (name : value) (w : World) :
  (ToBoolean name = false ->
     exists w',
       constructor name w =
         (Throw (Error "Stream Name is required to construct a publisher."), w')
       /\ next_ref w' = next_ref w /\ host w' = host w
       /\ trace w' = trace w ++
            [ELog error [VString "Stream Name is required to construct a publisher."]])
  /\ (ToBoolean name = true ->
       exists p w',
         constructor name w = (Normal p, w')
         /\ streamName p = name
         /\ millicastSignaling p = None
         /\ ~ allocated w (webRTCPeer p) /\ allocated w' (webRTCPeer p)
         /\ host w' = construct "MillicastWebRTC" (webRTCPeer p) [] (host w)
         /\ trace w' = trace w ++ [ENew "MillicastWebRTC" (webRTCPeer p) []])
  /\ ToBoolean VUndefined = false
  /\ ToBoolean VNull = false
  /\ ToBoolean (VString "") = false.
Proof.
  destruct w as [h n t]. split; [|split; [|repeat split]].
  - intros F. exec. rewrite F. simpl. eexists. repeat split.
  - intros T. exec. rewrite T. simpl. do 2 eexists.
    split; [reflexivity|]. unfold allocated. simpl.
    repeat split; lia.
Qed.

(** *** The status query *)

(** C4: isActive polls the status of the peer once and answers true
    exactly when that status is the string 'connected' (so false for an
    undefined status as well); the fields of the publisher are left as
    they were. *)
Theorem isActive_polls_peer_status (c : Config) (status : value) (h : Host) :
  invoke (webRTCPeer (this c)) "getRTCPeerStatus" [] (host (world c))
    = (Normal status, h) ->
  exists b c',
    isActive c = (Normal b, c')
    /\ (b = true <-> status = VString "connected")
    /\ this c' = this c
    /\ host (world c') = h
    /\ trace (world c') = trace (world c) ++
         [ECall (webRTCPeer (this c)) "getRTCPeerStatus" [] (Normal status);
          ELog info [VString "Broadcast status: ";
                     LogicalOr status (VString "not_established")]].
Proof.
  destruct c as [[peer sig name] [h0 n t]]. exec. intros H. rewrite H.
  do 2 eexists. split; [reflexivity|].
  split; [apply StrictEqualsString_spec|].
  simpl. rewrite <- app_assoc. repeat split.
Qed.

(** *** Stopping *)

(** C7: whenever stop returns, closeRTCPeer was called on the peer and
    returned, then close was called on the signaling object if the
    publisher held one, and returned, and the publisher holds no
    signaling object any more; the peer and the stream name are kept.
    The calls are the collaborators' own: the state they are left in is
    the one the last of them produced, and the trace records them with
    the completions they gave. *)
Theorem stop_ends_broadcast (c c' : Config) :
  stop c = (Normal tt, c') ->
  (exists closed,
     trace (world c') = trace (world c) ++ closed
     /\ stop_events (this c) closed)
  /\ millicastSignaling (this c') = None
  /\ webRTCPeer (this c') = webRTCPeer (this c)
  /\ streamName (this c') = streamName (this c)
  /\ (exists v h1,
        invoke (webRTCPeer (this c)) "closeRTCPeer" [] (host (world c))
          = (Normal v, h1)
        /\ match millicastSignaling (this c) with
           | Some s =>
               exists v', invoke s "close" [] h1 = (Normal v', host (world c'))
           | None => host (world c') = h1
           end)
  /\ next_ref (world c') = next_ref (world c)
  /\ performed (host (world c)) (events stop c) (host (world c')).
Proof.
  destruct c as [[peer sig name] [h0 n t]]. unfold stop_events. exec.
  destruct (invoke peer "closeRTCPeer" [] h0) as [[v|e] h1] eqn:I1; [|discriminate].
  destruct sig as [s|].
  - destruct (invoke s "close" [] h1) as [[v'|e] h2] eqn:I2; [|discriminate].
    intros [= <-]. cbn [this world host next_ref trace
                        webRTCPeer millicastSignaling streamName].
    repeat rewrite <- app_assoc. cbn [app]. rewrite skipn_length_app.
    split; [eexists; split; [reflexivity|]; exists v, v'; reflexivity|].
    do 3 (split; [reflexivity|]).
    split; [exists v, h1; split; [reflexivity|]; exists v'; exact I2|].
    split; [reflexivity|].
    cbn [performed]. exists h1. split; [exact I1|].
    exists h2. split; [exact I2|reflexivity].
  - intros [= <-]. cbn [this world host next_ref trace
                        webRTCPeer millicastSignaling streamName].
    repeat rewrite <- app_assoc. cbn [app]. rewrite skipn_length_app.
    split; [eexists; split; [reflexivity|]; exists v; reflexivity|].
    do 3 (split; [reflexivity|]).
    split; [exists v, h1; split; reflexivity|].
    split; [reflexivity|].
    cbn [performed]. exists h1. split; [exact I1|reflexivity].
Qed.

Lemma stop_ends_broadcast_fields (c c' : Config) :
  stop c = (Normal tt, c') ->
  millicastSignaling (this c') = None
  /\ webRTCPeer (this c') = webRTCPeer (this c)
  /\ streamName (this c') = streamName (this c).
Proof.
  destruct c as [[peer sig name] [h0 n t]]. exec.
  destruct (invoke peer "closeRTCPeer" [] h0) as [[v|e] h1]; [|discriminate].
  destruct sig as [s|].
  - destruct (invoke s "close" [] h1) as [[v'|e] h2]; [|discriminate].
    intros H. inversion H; subst; clear H. simpl. auto.
  - intros H. inversion H; subst; clear H. simpl. auto.
Qed.

(** [stop] returns as soon as the collaborator calls it makes return. *)
Lemma stop_returns (c : Config) (v : value) (h : Host) :
  invoke (webRTCPeer (this c)) "closeRTCPeer" [] (host (world c)) = (Normal v, h) ->
  (forall s, millicastSignaling (this c) = Some s ->
             exists v' h', invoke s "close" [] h = (Normal v', h')) ->
  exists c', stop c = (Normal tt, c').
Proof.
  destruct c as [[peer sig name] [h0 n t]]. exec. intros H Hs. rewrite H.
  destruct sig as [s|].
  - destruct (Hs s eq_refl) as (v' & h' & E). rewrite E. eexists. reflexivity.
  - eexists. reflexivity.
Qed.

(** C9, as the code has it: stop raises no exception of its own.  When it
    completes abruptly, the exception is the one that closeRTCPeer threw,
    or the one that close threw on the signaling object after
    closeRTCPeer had returned; it returns whenever the calls it makes
    return, and on a publisher that never broadcast (no signaling
    object, so that close is skipped) whenever closeRTCPeer returns.
    After a stop that returned, a second stop leaves the fields of the
    publisher as the first one left them, with no signaling object. *)
Theorem stop_safe_and_idempotent (c : Config) :
  (forall e c',
      stop c = (Throw e, c') ->
      (exists before r method,
         trace (world c') = trace (world c) ++ before ++ [ECall r method [] (Throw e)]
         /\ (method = "closeRTCPeer" \/ method = "close")
         /\ (millicastSignaling (this c) = None -> method = "closeRTCPeer"))
      /\ (fst (invoke (webRTCPeer (this c)) "closeRTCPeer" [] (host (world c)))
            = Throw e
          \/ exists s v h1,
               millicastSignaling (this c) = Some s
               /\ invoke (webRTCPeer (this c)) "closeRTCPeer" [] (host (world c))
                  = (Normal v, h1)
               /\ fst (invoke s "close" [] h1) = Throw e))
  /\ (forall v h,
        invoke (webRTCPeer (this c)) "closeRTCPeer" [] (host (world c)) = (Normal v, h) ->
        (forall s, millicastSignaling (this c) = Some s ->
                   exists v' h', invoke s "close" [] h = (Normal v', h')) ->
        exists c', stop c = (Normal tt, c'))
  /\ (millicastSignaling (this c) = None ->
       forall v h,
         invoke (webRTCPeer (this c)) "closeRTCPeer" [] (host (world c)) = (Normal v, h) ->
         exists c', stop c = (Normal tt, c'))
  /\ (forall c1,
        stop c = (Normal tt, c1) ->
        millicastSignaling (this c1) = None
        /\ forall r c2, stop c1 = (r, c2) -> this c2 = this c1).
Proof.
  split; [|split; [|split]].
  - destruct c as [[peer sig name] [h0 n t]]. exec. intros e c'.
    destruct (invoke peer "closeRTCPeer" [] h0) as [[v|e1] h1].
    + destruct sig as [s|]; [|discriminate].
      destruct (invoke s "close" [] h1) as [[v'|e2] h2] eqn:I2; [discriminate|].
      intros H. inversion H; subst; clear H.
      cbn [this world trace millicastSignaling fst]. split.
      * exists [ELog info [VString "Stopping broadcast"];
                ECall peer "closeRTCPeer" [] (Normal v)], s, "close".
        repeat rewrite <- app_assoc. cbn [app].
        split; [reflexivity|split; [right; reflexivity | discriminate]].
      * right. exists s, v, h1. rewrite I2. repeat split.
    + intros H. inversion H; subst; clear H.
      cbn [this world trace millicastSignaling fst]. split.
      * exists [ELog info [VString "Stopping broadcast"]], peer, "closeRTCPeer".
        repeat rewrite <- app_assoc. cbn [app]. auto.
      * left. reflexivity.
  - exact (stop_returns c).
  - intros N v h H. apply (stop_returns c v h H).
    intros s E. rewrite N in E. discriminate.
  - intros c1 H1.
    destruct (stop_ends_broadcast_fields c c1 H1) as (N & _).
    split; [exact N|].
    intros r c2. destruct c1 as [[peer sig name] [h0 n t]]. simpl in N. subst sig.
    exec. destruct (invoke peer "closeRTCPeer" [] h0) as [[v|e1] h1];
      intros H; inversion H; reflexivity.
Qed.

(** *** Broadcasting *)

Lemma Get_cases (v : value) :
  (forall key, Get v key = Throw TypeError)
  \/ (forall key, Get v key = Normal (prop v key)).
Proof. destruct v; simpl; auto. Qed.

Lemma Get_truthy (v : value) (key : string) :
  ToBoolean v = true -> Get v key = Normal (prop v key).
Proof. destruct v; simpl; auto; discriminate. Qed.

(** One step of symbolic execution: settle the call or the test the
    run is waiting for, from a hypothesis when there is one. *)
Ltac step :=
  match goal with
  | H : invoke ?r ?m ?a ?h = _ |- context [invoke ?r ?m ?a ?h] =>
      rewrite !H
  | H : StrictEqualsString ?v ?s = _
    |- context [if StrictEqualsString ?v ?s then _ else _] =>
      rewrite !H
  | H : ToBoolean ?v = _ |- context [if negb (ToBoolean ?v) then _ else _] =>
      rewrite !H; cbn [negb]; repeat rewrite (Get_truthy v _ H)
  | H : GetFirst ?v = _ |- context [GetFirst ?v] =>
      rewrite !H
  | |- context [invoke ?r ?m ?a ?h] =>
      let v := fresh "v" in let e := fresh "e" in let h' := fresh "h" in
      destruct (invoke r m a h) as [[v|e] h']
  | |- context [reemit_into ?r ?a ?h] =>
      let e := fresh "e" in let h' := fresh "h" in
      destruct (reemit_into r a h) as [[[]|e] h']
  | |- context [if StrictEqualsString ?v ?s then _ else _] =>
      let E := fresh "Active" in destruct (StrictEqualsString v s) eqn:E
  | |- context [if negb (ToBoolean ?v) then _ else _] =>
      let E := fresh "T" in
      destruct (ToBoolean v) eqn:E; cbn [negb];
      repeat rewrite (Get_truthy v _ E)
  | |- context [match GetFirst ?v with Normal _ => _ | Throw _ => _ end] =>
      let E := fresh "First" in destruct (GetFirst v) eqn:E
  | |- context [if JS.GreaterThan ?f ?g ?v ?n then _ else _] =>
      let E := fresh "Gt" in destruct (JS.GreaterThan f g v n) eqn:E
  end; exec.

Ltac tidy :=
  repeat rewrite <- app_assoc; cbn [app]; try rewrite skipn_length_app.

(** [step], keeping what each call of a collaborator gave. *)
Ltac step_keep :=
  match goal with
  | |- context [invoke ?r ?m ?a ?h] =>
      let v := fresh "v" in let e := fresh "e" in let h' := fresh "h" in
      let I := fresh "I" in
      destruct (invoke r m a h) as [[v|e] h'] eqn:I; exec
  | |- context [reemit_into ?r ?a ?h] =>
      let e := fresh "e" in let h' := fresh "h" in let I := fresh "I" in
      destruct (reemit_into r a h) as [[[]|e] h'] eqn:I; exec
  | _ => step
  end.

Ltac settle_restricts :=
  unfold restricts;
  repeat match goal with
    | H : ToBoolean _ = _ |- _ => rewrite H
    | H : JS.GreaterThan _ _ _ _ = _ |- _ => rewrite H
    end;
  cbn [negb andb].

(** The events of a run, replayed from what the calls gave. *)
Ltac replay :=
  cbn [performed app];
  repeat (eexists; split; [eassumption|]);
  reflexivity.

Lemma isActive_result (c : Config) :
  fst (isActive c) =
    match fst (invoke (webRTCPeer (this c)) "getRTCPeerStatus" [] (host (world c))) with
    | Normal status => Normal (StrictEqualsString status "connected")
    | Throw e => Throw e
    end.
Proof.
  destruct c as [[peer sig name] [h0 n t]]. exec.
  destruct (invoke peer "getRTCPeerStatus" [] h0) as [[v|e] h]; reflexivity.
Qed.

(** The poll behind an [isActive] that answered. *)
Lemma isActive_poll (c : Config) (b : bool) :
  fst (isActive c) = Normal b ->
  exists status h,
    invoke (webRTCPeer (this c)) "getRTCPeerStatus" [] (host (world c))
      = (Normal status, h)
    /\ StrictEqualsString status "connected" = b.
Proof.
  rewrite isActive_result.
  destruct (invoke _ _ _ _) as [[v|e] h]; simpl; intros H; inversion H.
  eauto.
Qed.


(** Calls that succeed exist: when the options pass validation, urls can
    be indexed and the collaborators return from every call, broadcast
    returns. *)
Lemma broadcast_returns (arg : value) (c : Config) (first : value) :
  (forall r m a h, exists v h', invoke r m a h = (Normal v, h')) ->
  (forall r a h, exists h', reemit_into r a h = (Normal tt, h')) ->
  missing (parameter arg) "publisherData" = false ->
  missing (parameter arg) "mediaStream" = false ->
  fst (isActive c) = Normal false ->
  GetFirst (prop (prop (parameter arg) "publisherData") "urls") = Normal first ->
  exists c', broadcast arg c = (Normal tt, c').
Proof.
  intros Hinv Hre P M A First.
  apply isActive_poll in A. destruct A as (status & h & I & A).
  unfold missing in P, M. apply negb_false_iff in P, M.
  destruct c as [[peer sig name] [h0 n t]].
  cbn [this world host webRTCPeer] in I.
  destruct (Get_cases (parameter arg)) as [G|G].
  { unfold prop in P. rewrite G in P. discriminate. }
  exec; rewrite !G; exec.
  do 5 step.
  repeat first
    [ match goal with
      | |- context [invoke ?r ?m ?a ?h] =>
          let E := fresh "E" in
          destruct (Hinv r m a h) as (? & ? & E); rewrite E; clear E; exec
      | |- context [reemit_into ?r ?a ?h] =>
          let E := fresh "E" in
          destruct (Hre r a h) as (? & E); rewrite E; clear E; exec
      end
    | step ].
  all: eexists; reflexivity.
Qed.

(** The end of a run that succeeded, once it is known whether the
    answer was rewritten. *)
Ltac broadcast_done :=
  do 8 eexists;
  split; [reflexivity|];
  split; [auto|];
  do 3 (split; [solve [reflexivity|assumption]|]);
  split; [replay|];
  split; [settle_restricts; split; intros; solve [reflexivity|discriminate]|];
  do 3 (split; [reflexivity|]);
  eexists; split; reflexivity.

(** C1: a call of broadcast that succeeds has done exactly this, in this
    order: the validation (the options are logged, the two required
    options are present, the status poll does not answer 'connected'),
    the preparation of the two collaborators, getRTCLocalSDP, publish
    with the offer just obtained, updateBandwidthRestriction on the
    answer when the bandwidth test holds and not otherwise,
    setRTCRemoteSDP, and the closing log line.  These are calls of the
    collaborators themselves: each completed as the trace records, one
    on the state the previous one left, and the state they are in after
    the call is the one setRTCRemoteSDP left.  The publisher holds the
    signaling object the call constructed, the only object it
    constructed. *)
Theorem broadcast_order (arg : value) (c c' : Config) :
  broadcast arg c = (Normal tt, c') ->
  let options := parameter arg in
  let peer := webRTCPeer (this c) in
  exists rewrite status signaling url v1 offer answer sdp v2,
    trace (world c') = trace (world c) ++
      [ELog debug [VString "Broadcast option values: "; options];
       ECall peer "getRTCPeerStatus" [] (Normal status);
       ELog info [VString "Broadcast status: ";
                  LogicalOr status (VString "not_established")];
       ENew "MillicastSignaling" signaling
         [VObject [("streamName", streamName (this c)); ("url", VString url)]];
       ECall peer "getRTCPeer" [] (Normal v1);
       EReemit peer [webRTCEvents_connectionStateChange] (Normal tt);
       EAssign peer "RTCOfferOptions"
         (VObject
            [("offerToReceiveVideo",
               VBool (negb (ToBoolean (prop options "disableVideo"))));
             ("offerToReceiveAudio",
               VBool (negb (ToBoolean (prop options "disableAudio"))))]);
       ECall peer "getRTCLocalSDP"
         [VObject [("mediaStream", prop options "mediaStream");
                   ("simulcast", prop options "simulcast");
                   ("codec", prop options "codec");
                   ("scalabilityMode", prop options "scalabilityMode")]]
         (Normal offer);
       ECall signaling "publish" [offer; prop options "codec"] (Normal answer)]
      ++ rewrite ++
      [ECall peer "setRTCRemoteSDP" [sdp] (Normal v2);
       ELog info [VString "Broadcasting to streamName: "; streamName (this c)]]
    /\ (rewrite = [] /\ sdp = answer
        \/ rewrite = [ECall peer "updateBandwidthRestriction"
                        [answer; prop options "bandwidth"] (Normal sdp)])
    /\ missing options "publisherData" = false
    /\ missing options "mediaStream" = false
    /\ StrictEqualsString status "connected" = false
    /\ performed (host (world c)) (events (broadcast arg) c) (host (world c'))
    /\ (rewrite = [] <-> restricts options = false)
    /\ signaling = next_ref (world c)
    /\ next_ref (world c') = S (next_ref (world c))
    /\ this c' = mkPublisher peer (Some signaling) (streamName (this c))
    /\ exists first,
         GetFirst (prop (prop options "publisherData") "urls") = Normal first
         /\ url = (JS.ToString NumberToString first ++ "?token=" ++
                   JS.ToString NumberToString
                     (prop (prop options "publisherData") "jwt"))%string.
Proof.
  destruct c as [[peer sig name] [h0 n t]].
  destruct (Get_cases (parameter arg)) as [G|G]; exec; rewrite !G; exec;
    [discriminate|].
  do 2 (step_keep; [|discriminate]).
  repeat step_keep.
  all: try discriminate.
  all: intros [= <-];
       cbn [this world host next_ref trace webRTCPeer streamName]; tidy.
  all: first [ solve [exists []; broadcast_done]
             | solve [refine (ex_intro _ [_] _); broadcast_done] ].
Qed.

Lemma restricts_cases (options : value) :
  (ToBoolean (prop options "disableVideo") = true -> restricts options = false)
  /\ (prop options "bandwidth" = VNumber 0 -> restricts options = false)
  /\ (prop options "bandwidth" = VUndefined -> restricts options = false)
  /\ (forall d n,
        prop options "disableVideo" = VBool d ->
        prop options "bandwidth" = VNumber n ->
        restricts options = negb d && PrimFloat.ltb 0 n).
Proof.
  unfold restricts, JS.GreaterThan. repeat split.
  - intros ->. reflexivity.
  - intros ->. apply andb_false_r.
  - intros ->. apply andb_false_r.
  - intros d n -> ->. reflexivity.
Qed.

(** C2: once publish has returned an answer, the answer goes through
    updateBandwidthRestriction (together with options.bandwidth) exactly
    when the test [!options.disableVideo && options.bandwidth > 0]
    holds, and setRTCRemoteSDP then receives what that call returned;
    when the test fails (video disabled, bandwidth 0 or absent among the
    cases) updateBandwidthRestriction is not called and setRTCRemoteSDP
    receives the answer of publish itself.  For a boolean disableVideo
    and a number bandwidth the test says: disableVideo is false and
    bandwidth is greater than 0.  The calls are the collaborators' own:
    with [h] the state they are in when publish has returned, what
    updateBandwidthRestriction gives on [h] is what setRTCRemoteSDP is
    called with, on the state that call left, and nothing comes between
    publish and these calls. *)
Theorem bandwidth_rewrite_condition
        (arg : value) (c : Config)
        (signaling : ref) (args : list value) (answer : value) :
  let options := parameter arg in
  let peer := webRTCPeer (this c) in
  let delta := events (broadcast arg) c in
  let c' := snd (broadcast arg c) in
  In (signaling, args, Normal answer) (calls "publish" delta) ->
  (restricts options = true ->
     exists res,
       calls "updateBandwidthRestriction" delta =
         [(peer, [answer; prop options "bandwidth"], res)]
       /\ match res with
          | Normal sdp =>
              exists res', calls "setRTCRemoteSDP" delta = [(peer, [sdp], res')]
          | Throw _ => calls "setRTCRemoteSDP" delta = []
          end)
  /\ (restricts options = false ->
       calls "updateBandwidthRestriction" delta = []
       /\ exists res', calls "setRTCRemoteSDP" delta = [(peer, [answer], res')])
  /\ (ToBoolean (prop options "disableVideo") = true -> restricts options = false)
  /\ (prop options "bandwidth" = VNumber 0 -> restricts options = false)
  /\ (prop options "bandwidth" = VUndefined -> restricts options = false)
  /\ (forall d n,
        prop options "disableVideo" = VBool d ->
        prop options "bandwidth" = VNumber n ->
        restricts options = negb d && PrimFloat.ltb 0 n)
  /\ exists before after h,
       delta = before ++ ECall signaling "publish" args (Normal answer) :: after
       /\ performed (host (world c))
            (before ++ [ECall signaling "publish" args (Normal answer)]) h
       /\ (restricts options = true ->
           exists res h',
             invoke peer "updateBandwidthRestriction"
                    [answer; prop options "bandwidth"] h = (res, h')
             /\ match res with
                | Normal sdp =>
                    exists res' rest,
                      invoke peer "setRTCRemoteSDP" [sdp] h' = (res', host (world c'))
                      /\ after =
                           ECall peer "updateBandwidthRestriction"
                                 [answer; prop options "bandwidth"] res
                           :: ECall peer "setRTCRemoteSDP" [sdp] res' :: rest
                | Throw e =>
                    after = [ECall peer "updateBandwidthRestriction"
                                   [answer; prop options "bandwidth"] res]
                    /\ host (world c') = h'
                    /\ fst (broadcast arg c) = Throw e
                end)
       /\ (restricts options = false ->
           exists res' rest,
             invoke peer "setRTCRemoteSDP" [answer] h = (res', host (world c'))
             /\ after = ECall peer "setRTCRemoteSDP" [answer] res' :: rest).
Proof.
  intros options peer delta c'. subst options peer delta c'.
  intros HIn.
  pose proof (restricts_cases (parameter arg)) as (R1 & R2 & R3 & R4).
  split; [|split; [|do 4 (split; [assumption|])]]; clear R1 R2 R3 R4; revert HIn.
  1,2: solve
    [ destruct c as [[peer sig name] [h0 n t]];
      destruct (Get_cases (parameter arg)) as [G|G]; exec; rewrite !G; exec;
      repeat step; tidy; simpl; try tauto;
      intros [[= <- <- <-]|[]]; settle_restricts; try discriminate; intros _;
      eauto; eexists; (split; [reflexivity|]); cbn iota; eauto ].
  destruct c as [[peer sig name] [h0 n t]].
  destruct (Get_cases (parameter arg)) as [G|G]; exec; rewrite !G; exec.
  all: repeat step_keep.
  all: tidy; simpl; try tauto.
  all: intros [[= <- <- <-]|[]].
  all: match goal with
       | Ip : invoke _ "publish" _ _ = (_, ?h)
         |- exists before after h', ?l = _ /\ _ =>
           exists (firstn 8 l), (skipn 9 l), h
       end; cbn [firstn skipn app].
  all: split; [reflexivity|]; split; [replay|].
  all: settle_restricts; split; intros R; try discriminate R; clear R.
  all: repeat (eexists; try (split; [eassumption|])); cbn iota.
  all: repeat split; repeat (eexists; try (split; [eassumption|])).
Qed.




(** *** Further properties of the methods *)

Lemma parameter_Get (arg : value) :
  arg <> VNull ->
  forall key, Get (parameter arg) key = Normal (prop (parameter arg) key).
Proof. unfold prop. destruct arg; simpl; intros N key; congruence. Qed.

(** X1: the checks of broadcast come in a fixed order and the first that
    fails decides the error, whatever the state of the publisher: null
    options give a TypeError, a missing publisherData gives 'Publisher
    data required' (also when mediaStream is missing too), a missing
    mediaStream gives 'MediaStream required'.  In all three cases the
    status of the peer is not even polled: the call only writes to the
    log. *)
Theorem broadcast_validation_errors (arg : value) (c : Config) :
  let options := parameter arg in
  let logged :=
    record (ELog debug [VString "Broadcast option values: "; options]) (world c) in
  (arg = VNull ->
     broadcast arg c = (Throw TypeError, mkConfig (this c) logged))
  /\ (arg <> VNull ->
      missing options "publisherData" = true ->
      broadcast arg c =
        (Throw (Error "Publisher data required"),
         mkConfig (this c)
           (record (ELog error [VString "Error while broadcasting. Publisher data required"])
                   logged)))
  /\ (missing options "publisherData" = false ->
      missing options "mediaStream" = true ->
      broadcast arg c =
        (Throw (Error "MediaStream required"),
         mkConfig (this c)
           (record (ELog error [VString "Error while broadcasting. MediaStream required"])
                   logged))).
Proof.
  intros options logged. subst options logged.
  destruct c as [[peer sig name] [h0 n t]]. split; [|split].
  - intros ->. reflexivity.
  - intros N P. pose proof (parameter_Get arg N) as G.
    unfold missing in P. apply negb_true_iff in P.
    exec. rewrite !G. exec. rewrite P. reflexivity.
  - intros P M. unfold missing in P, M.
    apply negb_false_iff in P. apply negb_true_iff in M.
    destruct (Get_cases (parameter arg)) as [G|G].
    { unfold prop in P. rewrite G in P. discriminate. }
    exec. rewrite !G. exec. rewrite P. cbn [negb]. rewrite M. reflexivity.
Qed.

(** X2: when the options are in order and the status poll itself throws,
    isActive throws that exception and so does broadcast, which stops
    there: nothing is constructed, the publisher keeps its fields, and
    the trace ends with the failed poll. *)
Theorem broadcast_status_poll_fails
        (arg : value) (c : Config) (e : exception) (h : Host) :
  missing (parameter arg) "publisherData" = false ->
  missing (parameter arg) "mediaStream" = false ->
  invoke (webRTCPeer (this c)) "getRTCPeerStatus" [] (host (world c)) = (Throw e, h) ->
  fst (isActive c) = Throw e
  /\ broadcast arg c =
       (Throw e,
        mkConfig (this c)
          (mkWorld h (next_ref (world c))
             (trace (world c) ++
                [ELog debug [VString "Broadcast option values: "; parameter arg];
                 ECall (webRTCPeer (this c)) "getRTCPeerStatus" [] (Throw e)]))).
Proof.
  intros P M I. unfold missing in P, M. apply negb_false_iff in P, M.
  split.
  - rewrite isActive_result, I. reflexivity.
  - destruct c as [[peer sig name] [h0 n t]].
    cbn [this world host webRTCPeer] in I.
    destruct (Get_cases (parameter arg)) as [G|G].
    { unfold prop in P. rewrite G in P. discriminate. }
    exec. rewrite !G. exec. do 3 step. tidy. reflexivity.
Qed.

(** X5: broadcast looks at nothing in its options but the fields it
    hands on, whether publisherData is there, its first url and its jwt.
    Two option objects that agree on these give the same outcome, leave
    the publisher and the collaborators in the same state, and produce
    the same events after the debug line that prints the options: other
    fields, and urls beyond the first, change nothing. *)
Theorem broadcast_reads_only_its_options (arg arg' : value) (c : Config) :
  arg <> VNull -> arg' <> VNull ->
  same_session (parameter arg) (parameter arg') ->
  fst (broadcast arg c) = fst (broadcast arg' c)
  /\ this (snd (broadcast arg c)) = this (snd (broadcast arg' c))
  /\ host (world (snd (broadcast arg c))) = host (world (snd (broadcast arg' c)))
  /\ next_ref (world (snd (broadcast arg c)))
     = next_ref (world (snd (broadcast arg' c)))
  /\ tl (events (broadcast arg) c) = tl (events (broadcast arg') c).
Proof.
  intros N N' (K & B & F & J).
  pose proof (parameter_Get arg N) as G.
  pose proof (parameter_Get arg' N') as G'.
  pose proof (K "mediaStream" ltac:(simpl; tauto)) as K1.
  pose proof (K "disableVideo" ltac:(simpl; tauto)) as K2.
  pose proof (K "disableAudio" ltac:(simpl; tauto)) as K3.
  pose proof (K "simulcast" ltac:(simpl; tauto)) as K4.
  pose proof (K "codec" ltac:(simpl; tauto)) as K5.
  pose proof (K "scalabilityMode" ltac:(simpl; tauto)) as K6.
  pose proof (K "bandwidth" ltac:(simpl; tauto)) as K7.
  clear K.
  destruct c as [[peer sig name] [h0 n t]].
  exec. rewrite !G, !G'. exec.
  rewrite <- B, <- K1, <- K2, <- K3, <- K4, <- K5, <- K6, <- K7.
  destruct (ToBoolean (prop (parameter arg) "publisherData")) eqn:T; cbn [negb]; exec.
  2:{ tidy; rewrite ?skipn_length_app. repeat split. }
  symmetry in B.
  repeat rewrite (Get_truthy _ _ T). repeat rewrite (Get_truthy _ _ B).
  rewrite <- F, <- J.
  repeat step.
  all: tidy; rewrite ?skipn_length_app; repeat split.
Qed.

(** X6: the publisher always refers to objects that exist, and its
    signaling object is never its peer: the constructor establishes
    this, and broadcast, stop and isActive keep it, however they end. *)
Theorem publisher_stays_well_formed :
  (forall name w p w',
      constructor name w = (Normal p, w') -> well_formed (mkConfig p w'))
  /\ (forall arg c r c',
        well_formed c -> broadcast arg c = (r, c') -> well_formed c')
  /\ (forall c r c', well_formed c -> stop c = (r, c') -> well_formed c')
  /\ (forall c r c', well_formed c -> isActive c = (r, c') -> well_formed c').
Proof.
  assert (Keep : forall (peer n n' : ref) (sig : option ref),
             peer < n ->
             (forall s, sig = Some s -> s < n /\ s <> peer) ->
             n <= n' ->
             peer < n' /\ (forall s, sig = Some s -> s < n' /\ s <> peer)).
  { intros peer n n' sig Wp Ws L. split; [lia|].
    intros s E. destruct (Ws s E). split; [lia|assumption]. }
  assert (Fresh : forall (peer n : ref),
             peer < n ->
             peer < S n /\ (forall s, Some n = Some s -> s < S n /\ s <> peer)).
  { intros peer n Wp. split; [lia|]. intros s [= <-]. lia. }
  unfold well_formed, allocated. split; [|split; [|split]].
  - intros name w p w'. destruct w as [h n t]. exec.
    destruct (ToBoolean name); cbn [negb]; [|discriminate].
    intros [= <- <-]. cbn. split; [lia|discriminate].
  - intros arg [[peer sig name] [h0 n t]] r c'.
    cbn [this world next_ref webRTCPeer millicastSignaling].
    intros [Wp Ws]. revert r c'.
    destruct (Get_cases (parameter arg)) as [G|G]; exec; rewrite !G; exec.
    all: repeat step.
    all: intros r c' [= <- <-].
    all: cbn [this world next_ref webRTCPeer millicastSignaling].
    all: solve [apply (Keep peer n n sig Wp Ws); lia | apply (Fresh peer n Wp)].
  - intros [[peer sig name] [h0 n t]] r c'.
    cbn [this world next_ref webRTCPeer millicastSignaling].
    intros [Wp Ws]. revert r c'. exec.
    destruct (invoke peer "closeRTCPeer" [] h0) as [[v|e1] h1].
    + destruct sig as [s|].
      * destruct (invoke s "close" [] h1) as [[v'|e2] h2];
          intros r c' [= <- <-];
          cbn [this world next_ref webRTCPeer millicastSignaling];
          [split; [exact Wp|discriminate] | split; [exact Wp|exact Ws]].
      * intros r c' [= <- <-]. split; [exact Wp|discriminate].
    + intros r c' [= <- <-]. split; [exact Wp|exact Ws].
  - intros [[peer sig name] [h0 n t]] r c'.
    cbn [this world next_ref webRTCPeer millicastSignaling].
    intros [Wp Ws]. revert r c'. exec.
    destruct (invoke peer "getRTCPeerStatus" [] h0) as [[v|e1] h1];
      intros r c' [= <- <-]; split; [exact Wp|exact Ws|exact Wp|exact Ws].
Qed.
(** Membership in an explicit list of events, case by case. *)
Ltac pick_event H :=
  cbn [In] in H; decompose [or] H; clear H;
  try discriminate; try contradiction.


(** X7: the only field broadcast ever writes on the peer is
    RTCOfferOptions, with offerToReceiveVideo the negation of
    options.disableVideo and offerToReceiveAudio the negation of
    options.disableAudio, and it writes it once.  The write comes right
    after getRTCPeer has returned and the forwarding of
    connectionStateChange is set up, and right before the call of
    getRTCLocalSDP with the mediaStream, simulcast, codec and
    scalabilityMode of the options, whether or not that call succeeds:
    the offer is asked for on a peer whose offer options are already in
    place.  The events are the collaborators' own interactions, each on
    the state the one before left. *)
Theorem offer_options_follow_the_options
        (arg : value) (c : Config) (target : ref) (field : string) (v : value) :
  let options := parameter arg in
  let peer := webRTCPeer (this c) in
  let delta := events (broadcast arg) c in
  In (EAssign target field v) delta ->
  target = peer
  /\ field = "RTCOfferOptions"
  /\ v = VObject
          [("offerToReceiveVideo",
             VBool (negb (ToBoolean (prop options "disableVideo"))));
           ("offerToReceiveAudio",
             VBool (negb (ToBoolean (prop options "disableAudio"))))]
  /\ (exists r, calls "getRTCPeer" delta = [(peer, [], Normal r)])
  /\ In (EReemit peer [webRTCEvents_connectionStateChange] (Normal tt)) delta
  /\ (exists res,
        calls "getRTCLocalSDP" delta =
          [(peer,
            [VObject [("mediaStream", prop options "mediaStream");
                      ("simulcast", prop options "simulcast");
                      ("codec", prop options "codec");
                      ("scalabilityMode", prop options "scalabilityMode")]],
            res)])
  /\ written delta = [(target, field, v)]
  /\ (exists before after r res,
        delta =
          before ++
          [ECall peer "getRTCPeer" [] (Normal r);
           EReemit peer [webRTCEvents_connectionStateChange] (Normal tt);
           EAssign target field v;
           ECall peer "getRTCLocalSDP"
             [VObject [("mediaStream", prop options "mediaStream");
                       ("simulcast", prop options "simulcast");
                       ("codec", prop options "codec");
                       ("scalabilityMode", prop options "scalabilityMode")]]
             res]
          ++ after)
  /\ performed (host (world c)) delta (host (world (snd (broadcast arg c)))).
Proof.
  intros options peer delta. subst options peer delta.
  destruct c as [[peer sig name] [h0 n t]].
  destruct (Get_cases (parameter arg)) as [G|G]; exec; rewrite !G; exec.
  all: repeat step_keep.
  all: tidy; intros H; pick_event H.
  all: match goal with
       | H : EAssign _ _ _ = EAssign _ _ _ |- _ => injection H as <- <- <-
       end.
  all: do 3 (split; [reflexivity|]).
  all: split; [eexists; reflexivity|].
  all: split; [cbn [In]; tauto|].
  all: split; [eexists; reflexivity|].
  all: split; [reflexivity|].
  all: split; [|replay].
  all: match goal with
       | |- exists before after r res, ?l = _ =>
           exists (firstn 4 l), (skipn 8 l)
       end; cbn [firstn skipn app]; do 2 eexists; reflexivity.
Qed.



End Verification.

(** ** The sample calls, run *)

Module Walkthrough.
Import Mock Scenario.

(** [broadcast(options)] on a fresh publisher, then the state it leaves. *)
Example live_publisher :
  this live = mkPublisher 0 (Some 1) (VString "demo")
  /\ host (world live) = VString "connected".
Proof. vm_compute. split; reflexivity. Qed.

Example first_broadcast :
  @events collaborators unit (broadcast options) idle =
    [ELog debug [VString "Broadcast option values: "; options];
     ECall 0 "getRTCPeerStatus" [] (Normal VUndefined);
     ELog info [VString "Broadcast status: "; VString "not_established"];
     ENew "MillicastSignaling" 1
       [VObject [("streamName", VString "demo");
                 ("url", VString "wss://live.example/ws?token=t0k3n")]];
     ECall 0 "getRTCPeer" [] (Normal VUndefined);
     EReemit 0 [VString "connectionStateChange"] (Normal tt);
     EAssign 0 "RTCOfferOptions"
       (VObject [("offerToReceiveVideo", VBool true);
                 ("offerToReceiveAudio", VBool true)]);
     ECall 0 "getRTCLocalSDP"
       [VObject [("mediaStream", VHost "MediaStream" 1);
                 ("simulcast", VUndefined);
                 ("codec", VUndefined);
                 ("scalabilityMode", VUndefined)]]
       (Normal (VString "offer"));
     ECall 1 "publish" [VString "offer"; VUndefined] (Normal (VString "answer"));
     ECall 0 "updateBandwidthRestriction" [VString "answer"; VNumber 1000]
       (Normal (VString "answer b=AS"));
     ECall 0 "setRTCRemoteSDP" [VString "answer b=AS"] (Normal VUndefined);
     ELog info [VString "Broadcasting to streamName: "; VString "demo"]].
Proof. vm_compute. reflexivity. Qed.

Example audio_only_broadcast :
  calls "updateBandwidthRestriction"
        (@events collaborators unit (broadcast audio_only) idle) = []
  /\ calls "setRTCRemoteSDP"
           (@events collaborators unit (broadcast audio_only) idle)
     = [(0, [VString "answer"], Normal VUndefined)].
Proof. vm_compute. split; reflexivity. Qed.

Example second_broadcast :
  @events collaborators unit (broadcast options) live =
    [ELog debug [VString "Broadcast option values: "; options];
     ECall 0 "getRTCPeerStatus" [] (Normal (VString "connected"));
     ELog info [VString "Broadcast status: "; VString "connected"];
     ELog warn [VString "Broadcast currently working"]]
  /\ fst (@broadcast collaborators options live)
     = Throw (Error "Broadcast currently working").
Proof. vm_compute. split; reflexivity. Qed.

Example broadcast_null : fst (@broadcast collaborators VNull idle) = Throw TypeError.
Proof. vm_compute. reflexivity. Qed.

(** A connection path without urls, and one whose urls is empty. *)
Example broadcast_without_urls :
  let o := VObject [("publisherData", VObject [("jwt", VString "t0k3n")]);
                    ("mediaStream", VHost "MediaStream" 1)] in
  fst (@broadcast collaborators o idle) = Throw TypeError
  /\ constructed (@events collaborators unit (broadcast o) idle) = [].
Proof. vm_compute. split; reflexivity. Qed.

Example broadcast_empty_urls :
  let o := VObject [("publisherData",
                      VObject [("urls", VArray []); ("jwt", VString "t0k3n")]);
                    ("mediaStream", VHost "MediaStream" 1)] in
  constructed (@events collaborators unit (broadcast o) idle) =
    [ENew "MillicastSignaling" 1
       [VObject [("streamName", VString "demo");
                 ("url", VString "undefined?token=t0k3n")]]].
Proof. vm_compute. reflexivity. Qed.

Example stop_live :
  @events collaborators unit stop live =
    [ELog info [VString "Stopping broadcast"];
     ECall 0 "closeRTCPeer" [] (Normal VUndefined);
     ECall 1 "close" [] (Normal VUndefined)]
  /\ this stopped = mkPublisher 0 None (VString "demo")
  /\ fst (@isActive collaborators stopped) = Normal false.
Proof. vm_compute. repeat split. Qed.

Example stop_idle :
  @events collaborators unit stop idle =
    [ELog info [VString "Stopping broadcast"];
     ECall 0 "closeRTCPeer" [] (Normal VUndefined)]
  /\ fst (@stop collaborators idle) = Normal tt.
Proof. vm_compute. repeat split. Qed.
(** A second [broadcast(options)] after the connection dropped: a new
    signaling object, and no close of the one held before. *)
Example rebroadcast_after_drop :
  constructed (@events collaborators unit (broadcast options) dropped) =
    [ENew "MillicastSignaling" 2
       [VObject [("streamName", VString "demo");
                 ("url", VString "wss://live.example/ws?token=t0k3n")]]]
  /\ calls "close" (@events collaborators unit (broadcast options) dropped) = []
  /\ this (snd (@broadcast collaborators options dropped))
     = mkPublisher 0 (Some 2) (VString "demo").
Proof. vm_compute. repeat split. Qed.

(** [broadcast(options)] and [stop()] when the peer connection fails. *)
Example broadcast_on_faulty_peer :
  @events Faulty.collaborators unit (broadcast options) Faulty.idle =
    [ELog debug [VString "Broadcast option values: "; options];
     ECall 0 "getRTCPeerStatus" [] (Throw (Foreign (VString "InvalidStateError")))]
  /\ @events Faulty.collaborators unit stop Faulty.idle =
       [ELog info [VString "Stopping broadcast"];
        ECall 0 "closeRTCPeer" [] (Throw (Foreign (VString "InvalidStateError")))].
Proof. vm_compute. split; reflexivity. Qed.
End Walkthrough.

(** ** The statements at work on the test doubles *)

Lemma constructor_requires_stream_name_witness :
  (ToBoolean (VString "") = false
   /\ exists w',
       @constructor Mock.collaborators (VString "") Mock.start =
         (Throw (Error "Stream Name is required to construct a publisher."), w'))
  /\ (ToBoolean (VString "demo") = true
      /\ exists p w',
          @constructor Mock.collaborators (VString "demo") Mock.start = (Normal p, w')
          /\ millicastSignaling p = None).
Proof.
  split.
  - split; [reflexivity|].
    destruct (proj1 (@constructor_requires_stream_name
                       Mock.collaborators (VString "") Mock.start) eq_refl)
      as (w' & E & _).
    exists w'. exact E.
  - split; [reflexivity|].
    destruct (proj1 (proj2 (@constructor_requires_stream_name
                              Mock.collaborators (VString "demo") Mock.start)) eq_refl)
      as (p & w' & E & _ & N & _).
    exists p, w'. split; [exact E | exact N].
Defined.

Lemma isActive_polls_peer_status_witness :
  @invoke Mock.collaborators (webRTCPeer (this Mock.live)) "getRTCPeerStatus" []
          (host (world Mock.live))
    = (Normal (VString "connected"), VString "connected")
  /\ exists b c',
      @isActive Mock.collaborators Mock.live = (Normal b, c')
      /\ (b = true <-> VString "connected" = VString "connected")
      /\ this c' = this Mock.live.
Proof.
  split; [reflexivity|].
  destruct (@isActive_polls_peer_status Mock.collaborators Mock.live
              (VString "connected") (VString "connected") eq_refl)
    as (b & c' & E & B & F & _).
  exists b, c'. repeat split; solve [exact E | apply B | exact F].
Defined.

Lemma stop_ends_broadcast_witness :
  @stop Mock.collaborators Mock.live = (Normal tt, Scenario.stopped)
  /\ millicastSignaling (this Scenario.stopped) = None
  /\ performed (host (world Mock.live))
       (@events Mock.collaborators unit stop Mock.live)
       (host (world Scenario.stopped)).
Proof.
  assert (R : @stop Mock.collaborators Mock.live = (Normal tt, Scenario.stopped))
    by (vm_compute; reflexivity).
  split; [exact R|].
  pose proof (@stop_ends_broadcast Mock.collaborators Mock.live Scenario.stopped R)
    as (_ & N & _ & _ & _ & _ & P).
  split; [exact N|exact P].
Defined.

Lemma stop_safe_and_idempotent_witness :
  (@stop Faulty.collaborators Faulty.idle
     = (Throw (Foreign (VString "InvalidStateError")), snd (@stop Faulty.collaborators Faulty.idle))
   /\ exists before r,
       trace (world (snd (@stop Faulty.collaborators Faulty.idle)))
         = trace (world Faulty.idle) ++ before
             ++ [ECall r "closeRTCPeer" [] (Throw (Foreign (VString "InvalidStateError")))])
  /\ (@invoke Mock.collaborators (webRTCPeer (this Mock.live)) "closeRTCPeer" []
              (host (world Mock.live)) = (Normal VUndefined, VUndefined)
      /\ exists c', @stop Mock.collaborators Mock.live = (Normal tt, c'))
  /\ (millicastSignaling (this Mock.idle) = None
      /\ exists c', @stop Mock.collaborators Mock.idle = (Normal tt, c'))
  /\ (@stop Mock.collaborators Mock.live = (Normal tt, Scenario.stopped)
      /\ this (snd (@stop Mock.collaborators Scenario.stopped)) = this Scenario.stopped).
Proof.
  split; [|split; [|split]].
  - assert (T : @stop Faulty.collaborators Faulty.idle
                = (Throw (Foreign (VString "InvalidStateError")),
                   snd (@stop Faulty.collaborators Faulty.idle)))
      by (vm_compute; reflexivity).
    split; [exact T|].
    destruct (proj1 (@stop_safe_and_idempotent Faulty.collaborators Faulty.idle) _ _ T)
      as ((before & r & method & E & _ & M) & _).
    exists before, r. rewrite <- (M eq_refl). exact E.
  - assert (I : @invoke Mock.collaborators (webRTCPeer (this Mock.live)) "closeRTCPeer" []
                        (host (world Mock.live)) = (Normal VUndefined, VUndefined))
      by (vm_compute; reflexivity).
    split; [exact I|].
    apply (proj1 (proj2 (@stop_safe_and_idempotent Mock.collaborators Mock.live)) _ _ I).
    intros s _. exists VUndefined, VUndefined. reflexivity.
  - split; [reflexivity|].
    exact (proj1 (proj2 (proj2 (@stop_safe_and_idempotent Mock.collaborators Mock.idle)))
             eq_refl VUndefined VUndefined eq_refl).
  - assert (S1 : @stop Mock.collaborators Mock.live = (Normal tt, Scenario.stopped))
      by (vm_compute; reflexivity).
    split; [exact S1|].
    exact (proj2 (proj2 (proj2 (proj2 (@stop_safe_and_idempotent Mock.collaborators
                                         Mock.live)))
                    Scenario.stopped S1)
             _ _ (surjective_pairing _)).
Defined.

(** C9, as stated, fails: the publisher below never broadcast and holds
    no signaling object, and stop throws on it, with the exception that
    closeRTCPeer threw. *)
Lemma stop_throws_without_signaling :
  millicastSignaling (this Faulty.idle) = None
  /\ fst (@stop Faulty.collaborators Faulty.idle)
     = Throw (Foreign (VString "InvalidStateError"))
  /\ fst (@invoke Faulty.collaborators (webRTCPeer (this Faulty.idle)) "closeRTCPeer" []
                  (host (world Faulty.idle)))
     = Throw (Foreign (VString "InvalidStateError")).
Proof. repeat split. Qed.

Lemma broadcast_order_witness :
  @broadcast Mock.collaborators Mock.options Mock.idle = (Normal tt, Mock.live)
  /\ (exists before rewrite sdp v after,
        trace (world Mock.live) =
          trace (world Mock.idle) ++ before ++ rewrite
            ++ ECall 0 "setRTCRemoteSDP" [sdp] (Normal v) :: after
        /\ List.length before = 9)
  /\ performed (host (world Mock.idle))
       (@events Mock.collaborators unit (broadcast Mock.options) Mock.idle)
       (host (world Mock.live))
  /\ next_ref (world Mock.live) = S (next_ref (world Mock.idle)).
Proof.
  assert (R : @broadcast Mock.collaborators Mock.options Mock.idle = (Normal tt, Mock.live))
    by (vm_compute; reflexivity).
  split; [exact R|].
  destruct (@broadcast_order Mock.collaborators Mock.options Mock.idle Mock.live R)
    as (rewrite & status & signaling & url & v1 & offer & answer & sdp & v2
        & E & _ & _ & _ & _ & P & _ & _ & N & _).
  split; [|split; [exact P|exact N]].
  eexists; exists rewrite, sdp, v2; eexists.
  split; [exact E | reflexivity].
Defined.

Lemma bandwidth_rewrite_condition_witness :
  (* bandwidth 1000, video enabled *)
  (In Scenario.published (calls "publish" (Scenario.happened Mock.options))
   /\ prop Mock.options "disableVideo" = VBool false
   /\ prop Mock.options "bandwidth" = VNumber 1000
   /\ exists res,
       calls "updateBandwidthRestriction" (Scenario.happened Mock.options)
         = [(0, [VString "answer"; VNumber 1000], res)])
  (* video disabled *)
  /\ (In Scenario.published (calls "publish" (Scenario.happened Scenario.audio_only))
      /\ ToBoolean (prop Scenario.audio_only "disableVideo") = true
      /\ calls "updateBandwidthRestriction" (Scenario.happened Scenario.audio_only) = [])
  (* bandwidth 0 *)
  /\ (In Scenario.published (calls "publish" (Scenario.happened Scenario.unlimited))
      /\ prop Scenario.unlimited "bandwidth" = VNumber 0
      /\ calls "updateBandwidthRestriction" (Scenario.happened Scenario.unlimited) = [])
  (* bandwidth absent *)
  /\ (In Scenario.published (calls "publish" (Scenario.happened Scenario.unset))
      /\ prop Scenario.unset "bandwidth" = VUndefined
      /\ calls "updateBandwidthRestriction" (Scenario.happened Scenario.unset) = []).
Proof.
  unfold Scenario.happened, Scenario.published.
  assert (I : forall o,
             calls "publish" (@events Mock.collaborators unit (broadcast o) Mock.idle)
               = [(1, [VString "offer"; VUndefined], Normal (VString "answer"))] ->
             In (1, [VString "offer"; VUndefined], Normal (VString "answer"))
                (calls "publish" (@events Mock.collaborators unit (broadcast o) Mock.idle)))
    by (intros o ->; left; reflexivity).
  split; [|split; [|split]].
  - pose proof (I Mock.options ltac:(vm_compute; reflexivity)) as P.
    pose proof (@bandwidth_rewrite_condition Mock.collaborators Mock.options
                  Mock.idle _ _ _ P) as (Y & _ & _ & _ & _ & B & _).
    split; [exact P|]. split; [reflexivity|]. split; [reflexivity|].
    destruct (Y (B false 1000%float eq_refl eq_refl)) as (res & E & _).
    exists res. exact E.
  - pose proof (I Scenario.audio_only ltac:(vm_compute; reflexivity)) as P.
    pose proof (@bandwidth_rewrite_condition Mock.collaborators Scenario.audio_only
                  Mock.idle _ _ _ P) as (_ & N & V & _).
    split; [exact P|]. split; [reflexivity|].
    exact (proj1 (N (V eq_refl))).
  - pose proof (I Scenario.unlimited ltac:(vm_compute; reflexivity)) as P.
    pose proof (@bandwidth_rewrite_condition Mock.collaborators Scenario.unlimited
                  Mock.idle _ _ _ P) as (_ & N & _ & Z & _).
    split; [exact P|]. split; [reflexivity|].
    exact (proj1 (N (Z eq_refl))).
  - pose proof (I Scenario.unset ltac:(vm_compute; reflexivity)) as P.
    pose proof (@bandwidth_rewrite_condition Mock.collaborators Scenario.unset
                  Mock.idle _ _ _ P) as (_ & N & _ & _ & U & _).
    split; [exact P|]. split; [reflexivity|].
    exact (proj1 (N (U eq_refl))).
Defined.






(** ** The further properties at work on the test doubles *)

Lemma broadcast_validation_errors_witness :
  (fst (@broadcast Mock.collaborators VNull Mock.live) = Throw TypeError)
  /\ (VUndefined <> VNull
      /\ missing (@parameter Mock.collaborators VUndefined) "publisherData" = true
      /\ fst (@broadcast Mock.collaborators VUndefined Mock.live)
         = Throw (Error "Publisher data required"))
  /\ (missing (@parameter Mock.collaborators Scenario.no_stream) "publisherData" = false
      /\ missing (@parameter Mock.collaborators Scenario.no_stream) "mediaStream" = true
      /\ fst (@broadcast Mock.collaborators Scenario.no_stream Mock.live)
         = Throw (Error "MediaStream required")).
Proof.
  split; [|split].
  - rewrite (proj1 (@broadcast_validation_errors Mock.collaborators VNull Mock.live)
               eq_refl).
    reflexivity.
  - assert (N : VUndefined <> VNull) by discriminate.
    assert (P : missing (@parameter Mock.collaborators VUndefined) "publisherData" = true)
      by (vm_compute; reflexivity).
    split; [exact N|]. split; [exact P|].
    rewrite (proj1 (proj2 (@broadcast_validation_errors Mock.collaborators
                             VUndefined Mock.live)) N P).
    reflexivity.
  - assert (P : missing (@parameter Mock.collaborators Scenario.no_stream) "publisherData"
                = false) by (vm_compute; reflexivity).
    assert (M : missing (@parameter Mock.collaborators Scenario.no_stream) "mediaStream"
                = true) by (vm_compute; reflexivity).
    split; [exact P|]. split; [exact M|].
    rewrite (proj2 (proj2 (@broadcast_validation_errors Mock.collaborators
                             Scenario.no_stream Mock.live)) P M).
    reflexivity.
Defined.

Lemma broadcast_status_poll_fails_witness :
  (missing (@parameter Faulty.collaborators Mock.options) "publisherData" = false
   /\ missing (@parameter Faulty.collaborators Mock.options) "mediaStream" = false
   /\ @invoke Faulty.collaborators (webRTCPeer (this Faulty.idle)) "getRTCPeerStatus" []
              (host (world Faulty.idle))
      = (Throw (Foreign (VString "InvalidStateError")), tt))
  /\ fst (@broadcast Faulty.collaborators Mock.options Faulty.idle)
     = Throw (Foreign (VString "InvalidStateError")).
Proof.
  assert (P : missing (@parameter Faulty.collaborators Mock.options) "publisherData" = false)
    by (vm_compute; reflexivity).
  assert (M : missing (@parameter Faulty.collaborators Mock.options) "mediaStream" = false)
    by (vm_compute; reflexivity).
  assert (I : @invoke Faulty.collaborators (webRTCPeer (this Faulty.idle))
                      "getRTCPeerStatus" [] (host (world Faulty.idle))
              = (Throw (Foreign (VString "InvalidStateError")), tt))
    by reflexivity.
  split; [exact (conj P (conj M I))|].
  rewrite (proj2 (@broadcast_status_poll_fails Faulty.collaborators Mock.options
                    Faulty.idle _ _ P M I)).
  reflexivity.
Defined.


Lemma broadcast_reads_only_its_options_witness :
  (Mock.options <> VNull /\ Scenario.verbose <> VNull
   /\ same_session (@parameter Mock.collaborators Mock.options)
                   (@parameter Mock.collaborators Scenario.verbose))
  /\ tl (@events Mock.collaborators unit (broadcast Mock.options) Mock.idle)
     = tl (@events Mock.collaborators unit (broadcast Scenario.verbose) Mock.idle).
Proof.
  assert (N : Mock.options <> VNull) by discriminate.
  assert (N' : Scenario.verbose <> VNull) by discriminate.
  assert (S : same_session (@parameter Mock.collaborators Mock.options)
                           (@parameter Mock.collaborators Scenario.verbose)).
  { split; [|repeat split].
    intros key K. cbn [In passed_on] in K.
    decompose [or] K; try contradiction; subst; reflexivity. }
  split; [exact (conj N (conj N' S))|].
  exact (proj2 (proj2 (proj2 (proj2
           (@broadcast_reads_only_its_options Mock.collaborators Mock.options
              Scenario.verbose Mock.idle N N' S))))).
Defined.

Lemma publisher_stays_well_formed_witness :
  (@constructor Mock.collaborators (VString "demo") Mock.start
     = (Normal (this Mock.idle), world Mock.idle)
   /\ well_formed Mock.idle)
  /\ (@broadcast Mock.collaborators Mock.options Mock.idle = (Normal tt, Mock.live)
      /\ well_formed Mock.live)
  /\ (@stop Mock.collaborators Mock.live = (Normal tt, Scenario.stopped)
      /\ well_formed Scenario.stopped)
  /\ (@isActive Mock.collaborators Mock.live
        = (Normal true, snd (@isActive Mock.collaborators Mock.live))
      /\ well_formed (snd (@isActive Mock.collaborators Mock.live))).
Proof.
  destruct (@publisher_stays_well_formed Mock.collaborators) as (K & B & S & A).
  assert (R0 : @constructor Mock.collaborators (VString "demo") Mock.start
               = (Normal (this Mock.idle), world Mock.idle))
    by (vm_compute; reflexivity).
  assert (R1 : @broadcast Mock.collaborators Mock.options Mock.idle = (Normal tt, Mock.live))
    by (vm_compute; reflexivity).
  assert (R2 : @stop Mock.collaborators Mock.live = (Normal tt, Scenario.stopped))
    by (vm_compute; reflexivity).
  assert (R3 : @isActive Mock.collaborators Mock.live
               = (Normal true, snd (@isActive Mock.collaborators Mock.live)))
    by (vm_compute; reflexivity).
  assert (W0 : well_formed Mock.idle).
  { pose proof (K _ _ _ _ R0) as W.
    assert (E : mkConfig (this Mock.idle) (world Mock.idle) = Mock.idle)
      by (vm_compute; reflexivity).
    rewrite E in W. exact W. }
  pose proof (B _ _ _ _ W0 R1) as W1.
  split; [split; [exact R0|exact W0]|].
  split; [split; [exact R1|exact W1]|].
  split; [split; [exact R2|exact (S _ _ _ W1 R2)]|].
  split; [exact R3|exact (A _ _ _ W1 R3)].
Defined.

Lemma offer_options_follow_the_options_witness :
  In (EAssign 0 "RTCOfferOptions"
        (VObject [("offerToReceiveVideo", VBool false);
                  ("offerToReceiveAudio", VBool true)]))
     (@events Mock.collaborators unit (broadcast Scenario.audio_only) Mock.idle)
  /\ exists r,
      calls "getRTCPeer"
            (@events Mock.collaborators unit (broadcast Scenario.audio_only) Mock.idle)
        = [(webRTCPeer (this Mock.idle), [], Normal r)].
Proof.
  assert (I : In (EAssign 0 "RTCOfferOptions"
                    (VObject [("offerToReceiveVideo", VBool false);
                              ("offerToReceiveAudio", VBool true)]))
                 (@events Mock.collaborators unit (broadcast Scenario.audio_only) Mock.idle))
    by (vm_compute; solve [repeat first [left; reflexivity | right]]).
  split; [exact I|].
  exact (proj1 (proj2 (proj2 (proj2
           (@offer_options_follow_the_options Mock.collaborators Scenario.audio_only
              Mock.idle _ _ _ I))))).
Defined.



